(** * AppLocked: the session auto-lock controller

    A shallow embedding of [src/components/AppLocked.tsx].  The component's
    hook state ([useFlag], [useRef], [useState]) is a record that the
    handlers transform; calls to external collaborators (bottom sheet,
    in-app browser, global actions, the API) are appended to a log kept in
    the same record, so that "called exactly once" can be counted.
    Time is [Date.now()] in milliseconds, an integer, modelled in [Z]. *)

From Stdlib Require Import ZArith String List Bool Lia.
Import ListNotations.
Local Open Scope Z_scope.
Local Open Scope string_scope.
Local Open Scope list_scope.

(** ** Module-level constants of the source file *)

Definition WINDOW_EVENTS_LATENCY : Z := 5000.
Definition INTERVAL_CHECK_PERIOD : Z := 5000.
Definition PINPAD_RESET_DELAY : Z := 300.

Definition ACTIVATION_EVENT_NAMES : list string :=
  ["focus"; "mousemove"; "touch"; "wheel"; "keydown"].

(** [const enum SLIDES { button, passwordForm }].  The spec calls the first
    one the biometric prompt and the second one the password form. *)
Inductive SLIDES : Type :=
| button
| passwordForm.

Definition SLIDES_eqb (a b : SLIDES) : bool :=
  match a, b with
  | button, button | passwordForm, passwordForm => true
  | _, _ => false
  end.

(** ** Imported declarations

    [AutolockValueType] is a string union in [global/types]; the entries of
    [AUTOLOCK_OPTIONS_LIST] (in [config]) carry a [value] and a [period].
    Neither file is part of the sources at hand, so the table and the build
    flags are taken as parameters of the development, gathered in [Env]. *)

Definition AutolockValueType : Type := string.

Record AutolockOption : Type := mkOption {
  value : AutolockValueType;
  period : Z
}.

Record Env : Type := mkEnv {
  AUTOLOCK_OPTIONS_LIST : list AutolockOption;
  DEBUG : bool;
  IS_CAPACITOR : bool;
  IS_DELEGATED_BOTTOM_SHEET : bool;
  IS_DELEGATING_BOTTOM_SHEET : bool
}.

(** [interface StateProps]; [theme] only selects the logo and is left out.
    An optional field is [None] when the property is [undefined]. *)
Record StateProps : Type := mkProps {
  isNonNativeBiometricAuthEnabled : bool;
  autolockValue : option AutolockValueType;
  isHardwareAccount : option bool
}.

(** JavaScript truthiness of an optional boolean: [undefined] and [false]
    are falsy. *)
Definition truthy (b : option bool) : bool :=
  match b with
  | Some true => true
  | _ => false
  end.

(** ** Calls to external collaborators, in the order they are made *)

Inductive Call : Type :=
| BottomSheet_show
| BottomSheet_hide
| InAppBrowser_show
| InAppBrowser_hide
| setIsPinAccepted
| clearIsPinAccepted
| vibrateOnSuccess
| submitAppLockActivityEvent
| callApi_verifyPassword (password : string).

Definition Call_eqb (a b : Call) : bool :=
  match a, b with
  | BottomSheet_show, BottomSheet_show
  | BottomSheet_hide, BottomSheet_hide
  | InAppBrowser_show, InAppBrowser_show
  | InAppBrowser_hide, InAppBrowser_hide
  | setIsPinAccepted, setIsPinAccepted
  | clearIsPinAccepted, clearIsPinAccepted
  | vibrateOnSuccess, vibrateOnSuccess
  | submitAppLockActivityEvent, submitAppLockActivityEvent => true
  | callApi_verifyPassword p, callApi_verifyPassword q => String.eqb p q
  | _, _ => false
  end.

(** Number of times a call occurs in a log. *)
Fixpoint count (c : Call) (log : list Call) : nat :=
  match log with
  | [] => O
  | d :: log' => if Call_eqb c d then S (count c log') else count c log'
  end.

(** ** Component state *)

Record State : Type := mkState {
  isLocked : bool;                    (* useFlag, line 78 *)
  shouldRenderUi : bool;              (* useFlag, line 79 *)
  lastActivityTime : Z;               (* useRef, line 80 *)
  slideForBiometricAuth : SLIDES;     (* useState, line 81 *)
  passwordError : string;             (* useState, line 84 *)
  closeTimeout : bool;                (* exit transition of useShowTransition running *)
  calls : list Call                   (* external calls made so far *)
}.

(** A handler body is a state transformer; [;;] sequences statements and
    [when] is an [if] without [else]. *)
Definition Action : Type := State -> State.

Definition andThen (a b : Action) : Action := fun st => b (a st).
Notation "a ;; b" := (andThen a b) (at level 61, right associativity).

Definition when (c : bool) (a : Action) : Action :=
  fun st => if c then a st else st.

Definition skip : Action := fun st => st.

Definition call (c : Call) : Action := fun st =>
  mkState (isLocked st) (shouldRenderUi st) (lastActivityTime st)
          (slideForBiometricAuth st) (passwordError st) (closeTimeout st)
          (calls st ++ [c]).

(** Modelled from the spec: the hook [useFlag] (hooks/useFlag, not among the
    sources) owns one boolean; it returns the value, a setter to [true] and
    a setter to [false], and starts from its argument. *)
Definition setIsLocked (b : bool) : Action := fun st =>
  mkState b (shouldRenderUi st) (lastActivityTime st)
          (slideForBiometricAuth st) (passwordError st) (closeTimeout st)
          (calls st).

Definition setShouldRenderUi (b : bool) : Action := fun st =>
  mkState (isLocked st) b (lastActivityTime st)
          (slideForBiometricAuth st) (passwordError st) (closeTimeout st)
          (calls st).

Definition lock : Action := setIsLocked true.
Definition unlock : Action := setIsLocked false.
Definition showUi : Action := setShouldRenderUi true.
Definition hideUi : Action := setShouldRenderUi false.

Definition setLastActivityTime (t : Z) : Action := fun st =>
  mkState (isLocked st) (shouldRenderUi st) t
          (slideForBiometricAuth st) (passwordError st) (closeTimeout st)
          (calls st).

Definition setSlideForBiometricAuth (s : SLIDES) : Action := fun st =>
  mkState (isLocked st) (shouldRenderUi st) (lastActivityTime st)
          s (passwordError st) (closeTimeout st) (calls st).

Definition setPasswordError (e : string) : Action := fun st =>
  mkState (isLocked st) (shouldRenderUi st) (lastActivityTime st)
          (slideForBiometricAuth st) e (closeTimeout st) (calls st).

Definition setCloseTimeout (b : bool) : Action := fun st =>
  mkState (isLocked st) (shouldRenderUi st) (lastActivityTime st)
          (slideForBiometricAuth st) (passwordError st) b (calls st).

(** What [render] returns, as far as handlers are concerned: nothing in a
    delegated bottom sheet (line 225), an empty [Transition] while
    [shouldRenderUi] is off, else the unlock button or the password form
    (line 188). *)
Inductive View : Type :=
| NoView
| EmptyTransition
| UnlockButton
| PasswordFormView.

Definition View_eqb (a b : View) : bool :=
  match a, b with
  | NoView, NoView | EmptyTransition, EmptyTransition
  | UnlockButton, UnlockButton | PasswordFormView, PasswordFormView => true
  | _, _ => false
  end.

(** Modelled from the spec: the hook [useBackgroundMode] (not among the
    sources) subscribes to the host's "entered background" and "returned to
    foreground" notifications; its two callback parameters are taken in
    that order. *)
Inductive BackgroundSlot : Type :=
| onBlur
| onFocus.

(** What can happen to a mounted component.  [now] is the value [Date.now()]
    has when the handler runs, [inAppBrowser] tells whether
    [getInAppBrowser()] returns an object, [result] is what
    [callApi('verifyPassword', ...)] resolves to ([None]: [undefined]).
    [WindowActivity] is a call of [handleActivityThrottled] by a window
    listener that the throttle lets through, [ActivitySignal] a change of
    the module's activity signal, [WindowLock] a call of the debug hook
    [window.lock]. *)
Inductive Event : Type :=
| WindowActivity (now : Z)
| ActivitySignal (now : Z)
| IntervalTick (now : Z) (inAppBrowser : bool)
| SubmitPassword (password : string) (result : option bool)
| PasswordUpdate
| UnlockButtonClick
| ContainerClick
| BackgroundMode (slot : BackgroundSlot)
| CloseTransitionEnd (inAppBrowser : bool)
| WindowLock (inAppBrowser : bool).

Section AppLocked.

Variable env : Env.
Variable props : StateProps.

(** Line 70: [autolockValue = 'never'] in the parameter destructuring. *)
Definition autolockValueOrDefault : AutolockValueType :=
  match autolockValue props with
  | Some v => v
  | None => "never"
  end.

(** [autolockValue !== 'never' && !isHardwareAccount], the expression of
    lines 78 and 101. *)
Definition autolockEnabled : bool :=
  negb (String.eqb autolockValueOrDefault "never")
  && negb (truthy (isHardwareAccount props)).

(** Lines 94-96: [find(...)!.period]; when no entry matches, the member
    access on [undefined] throws and the render fails ([None]). *)
Definition autolockPeriod : option Z :=
  match find (fun option => String.eqb (value option) autolockValueOrDefault)
             (AUTOLOCK_OPTIONS_LIST env) with
  | Some option => Some (period option)
  | None => None
  end.

(** Lines 78-84: the hook state of the first render. *)
Definition initialState (now : Z) (backgroundModeActive : bool) : State :=
  {| isLocked := autolockEnabled;
     shouldRenderUi := autolockEnabled;
     lastActivityTime := now;
     slideForBiometricAuth :=
       if backgroundModeActive then button else passwordForm;
     passwordError := "";
     closeTimeout := false;
     calls := [] |}.

Definition mount (now : Z) (backgroundModeActive : bool) : option State :=
  match autolockPeriod with
  | Some _ => Some (initialState now backgroundModeActive)
  | None => None
  end.

(** Lines 86-92. *)
Definition afterUnlockCallback (inAppBrowser : bool) : Action :=
  hideUi ;;
  setSlideForBiometricAuth button ;;
  when inAppBrowser (call InAppBrowser_show) ;;
  call clearIsPinAccepted ;;
  when (IS_DELEGATING_BOTTOM_SHEET env) (call BottomSheet_show).

(** The calls [afterUnlockCallback] makes, in order. *)
Definition afterUnlockCalls (inAppBrowser : bool) : list Call :=
  (if inAppBrowser then [InAppBrowser_show] else [])
  ++ [clearIsPinAccepted]
  ++ (if IS_DELEGATING_BOTTOM_SHEET env then [BottomSheet_show] else []).

(** The calls [handleLock] makes when its guard holds, in order. *)
Definition lockCalls (inAppBrowser : bool) : list Call :=
  (if IS_DELEGATING_BOTTOM_SHEET env then [BottomSheet_hide] else [])
  ++ (if inAppBrowser then [InAppBrowser_hide] else []).

(** Lines 100-108. *)
Definition handleLock (inAppBrowser : bool) : Action :=
  when autolockEnabled
    (lock ;;
     showUi ;;
     when (IS_DELEGATING_BOTTOM_SHEET env) (call BottomSheet_hide) ;;
     when inAppBrowser (call InAppBrowser_hide)) ;;
  setSlideForBiometricAuth button.

(** Lines 112-114. *)
Definition handleChangeSlideForBiometricAuth : Action :=
  setSlideForBiometricAuth passwordForm.

(** Lines 116-129.  [result] is what the awaited verification resolves to;
    the awaited [vibrateOnSuccess] is taken to return. *)
Definition handleSubmitPassword (password : string) (result : option bool)
  : Action :=
  call (callApi_verifyPassword password) ;;
  if negb (truthy result)
  then setPasswordError "Wrong password, please try again."
  else
    when (IS_CAPACITOR env) (call setIsPinAccepted ;; call vibrateOnSuccess) ;;
    unlock.

(** Line 131. *)
Definition handlePasswordChange : Action := setPasswordError "".

(** Lines 133-139. *)
Definition handleActivity (now : Z) : Action :=
  if IS_DELEGATED_BOTTOM_SHEET env
  then call submitAppLockActivityEvent
  else setLastActivityTime now.

(** Lines 161-170: the effect registers an interval unless the context is
    a delegated bottom sheet; the result is the period of the interval. *)
Definition intervalEffect : option Z :=
  if IS_DELEGATED_BOTTOM_SHEET env then None else Some INTERVAL_CHECK_PERIOD.

(** Lines 164-168: the body of the interval. *)
Definition intervalCallback (period : Z) (now : Z) (inAppBrowser : bool)
  : Action :=
  fun st =>
    if negb (isLocked st) && (now - lastActivityTime st >? period)
    then handleLock inAppBrowser st
    else st.

(** Line 172: [useBackgroundMode(undefined, handleChangeSlideForBiometricAuth)]. *)
Definition useBackgroundMode (slot : BackgroundSlot) : option Action :=
  match slot with
  | onBlur => None
  | onFocus => Some handleChangeSlideForBiometricAuth
  end.

(** Lines 182-237. *)
Definition render (st : State) : View :=
  if IS_DELEGATED_BOTTOM_SHEET env then NoView
  else if shouldRenderUi st then
    if isNonNativeBiometricAuthEnabled props
       && SLIDES_eqb (slideForBiometricAuth st) button
    then UnlockButton
    else PasswordFormView
  else EmptyTransition.

(** Line 223. *)
Definition transitionKey (st : State) : Z :=
  Z.b2z (SLIDES_eqb (slideForBiometricAuth st) passwordForm)
  + Z.b2z (shouldRenderUi st) * 2.

(** Modelled from the spec: the hook [useShowTransition] (not among the
    sources) runs its close callback once the exit transition that starts
    when its flag goes from on to off has completed; turning the flag on
    again drops a pending exit transition.  [wasLocked] is the flag of the
    previous render. *)
Definition useShowTransition (wasLocked : bool) : Action := fun st =>
  if isLocked st then setCloseTimeout false st
  else if wasLocked then setCloseTimeout true st
  else st.

(** Run a handler, then render again. *)
Definition dispatch (h : Action) (st : State) : State :=
  useShowTransition (isLocked st) (h st).

(** One event on a mounted component; [None] when the event cannot occur
    in that state (no such listener, element not rendered). *)
Definition step (st : State) (ev : Event) : option State :=
  match ev with
  | WindowActivity now => Some (dispatch (handleActivity now) st)
  | ActivitySignal now =>
      if IS_DELEGATED_BOTTOM_SHEET env then Some st
      else Some (dispatch (handleActivity now) st)
  | IntervalTick now inAppBrowser =>
      match intervalEffect, autolockPeriod with
      | Some _, Some period =>
          Some (dispatch (intervalCallback period now inAppBrowser) st)
      | _, _ => None
      end
  | SubmitPassword password result =>
      if View_eqb (render st) PasswordFormView
      then Some (dispatch (handleSubmitPassword password result) st)
      else None
  | PasswordUpdate =>
      if View_eqb (render st) PasswordFormView
      then Some (dispatch handlePasswordChange st)
      else None
  | UnlockButtonClick =>
      if View_eqb (render st) UnlockButton
      then Some (dispatch handleChangeSlideForBiometricAuth st)
      else None
  | ContainerClick =>
      if negb (IS_DELEGATED_BOTTOM_SHEET env)
         && isNonNativeBiometricAuthEnabled props
      then Some (dispatch handleChangeSlideForBiometricAuth st)
      else None
  | BackgroundMode slot =>
      match useBackgroundMode slot with
      | Some h => Some (dispatch h st)
      | None => Some st
      end
  | CloseTransitionEnd inAppBrowser =>
      if closeTimeout st
      then Some (setCloseTimeout false (afterUnlockCallback inAppBrowser st))
      else None
  | WindowLock inAppBrowser =>
      if DEBUG env then Some (dispatch (handleLock inAppBrowser) st) else None
  end.

Fixpoint run (st : State) (evs : list Event) : option State :=
  match evs with
  | [] => Some st
  | ev :: evs' =>
      match step st ev with
      | Some st' => run st' evs'
      | None => None
      end
  end.

End AppLocked.

(** ** Concrete configurations

    A table of the shape [AUTOLOCK_OPTIONS_LIST] has in [config], and the
    combinations of build flags and props used to evaluate the model. *)

Definition optionsTable : list AutolockOption :=
  [ mkOption "never" 0;
    mkOption "1" 30000;
    mkOption "2" 180000;
    mkOption "3" 1800000 ].

(** Web build, single window. *)
Definition envWeb : Env := mkEnv optionsTable false false false false.

(** Capacitor build, the main window that delegates to a bottom sheet. *)
Definition envDelegating : Env := mkEnv optionsTable false true false true.

(** Capacitor build, inside the delegated bottom sheet. *)
Definition envDelegated : Env := mkEnv optionsTable false true true false.

(** Debug web build: [window.lock] is installed. *)
Definition envDebug : Env := mkEnv optionsTable true false false false.

Definition propsNever : StateProps := mkProps false (Some "never") (Some false).
Definition propsAbsent : StateProps := mkProps false None None.
Definition propsThirtySeconds : StateProps := mkProps false (Some "1") None.
Definition propsBiometric : StateProps := mkProps true (Some "1") (Some false).
Definition propsHardware : StateProps := mkProps false (Some "2") (Some true).

(** A locked session showing the password form. *)
Definition lockedOnPasswordForm : State :=
  mkState true true 1000 passwordForm "" false [].

(** A locked session showing the unlock button. *)
Definition lockedOnButton : State :=
  mkState true true 1000 button "" false [].

(** An unlocked session whose last activity was at time 1000. *)
Definition unlockedIdle : State :=
  mkState false false 1000 passwordForm "" false [].

(** Activity, a tick after a long idle time, the debug hook and a return to
    the foreground, on the setting 'never'. *)
Definition traceNever : list Event :=
  [ WindowActivity 2000; IntervalTick 900000 true; WindowLock true;
    BackgroundMode onFocus; IntervalTick 905000 true ].

(** The session starts locked, the password is accepted at once and the
    exit transition ends; the user then stays idle. *)
Definition traceUnlock : list Event :=
  [ SubmitPassword "secret" (Some true); CloseTransitionEnd false ].

(** ** The container (lines 240-252)

    [withGlobal] computes the props from the global state.  Of that state
    only [settings.authConfig] and [settings.autolockValue] are read here;
    the type of the whole and the selector [selectIsHardwareAccount] are
    declared outside the sources at hand and are parameters. *)

Record AuthConfig : Type := mkAuthConfig {
  kind : string
}.

Record Settings : Type := mkSettings {
  authConfig : option AuthConfig;
  settingsAutolockValue : option AutolockValueType
}.

Section Container.

Variable Global : Type.
Variable settings : Global -> Settings.
Variable selectIsHardwareAccount : Global -> option bool.

(** Line 245: [!!authConfig && authConfig.kind !== 'password']. *)
Definition isBiometricAuthEnabled (global : Global) : bool :=
  match authConfig (settings global) with
  | Some config => negb (String.eqb (kind config) "password")
  | None => false
  end.

(** Line 246: [!!authConfig && authConfig.kind === 'native-biometrics']. *)
Definition isNativeBiometricAuthEnabled (global : Global) : bool :=
  match authConfig (settings global) with
  | Some config => String.eqb (kind config) "native-biometrics"
  | None => false
  end.

(** Lines 240-252. *)
Definition mapStateToProps (global : Global) : StateProps :=
  {| isNonNativeBiometricAuthEnabled :=
       isBiometricAuthEnabled global
       && negb (isNativeBiometricAuthEnabled global);
     autolockValue := settingsAutolockValue (settings global);
     isHardwareAccount := selectIsHardwareAccount global |}.

End Container.

(** ** The page-script flag

    [IS_EXTENSION_PAGE_SCRIPT] of the second source file, as a function of
    the build flag [IS_EXTENSION] and of [self.location.protocol]. *)

Definition EXTENSION_PROTOCOLS : list string :=
  ["chrome-extension:"; "moz-extension:"].

Definition IS_EXTENSION_PAGE_SCRIPT (IS_EXTENSION : bool) (protocol : string)
  : bool :=
  IS_EXTENSION && negb (existsb (String.eqb protocol) EXTENSION_PROTOCOLS).

(** ** Window listeners (lines 143-153)

    The listeners of [window] are a list of registrations.  By the DOM rule,
    [addEventListener] ignores a registration with the same type, callback
    and capture flag as one already present, and [removeEventListener]
    removes the registration with the same three.  Callbacks are compared
    by identity, here a number. *)

Record Listener : Type := mkListener {
  eventName : string;
  callback : nat;
  capture : bool
}.

Definition Listener_eqb (a b : Listener) : bool :=
  String.eqb (eventName a) (eventName b)
  && Nat.eqb (callback a) (callback b)
  && Bool.eqb (capture a) (capture b).

Definition addEventListener (l : Listener) (window : list Listener)
  : list Listener :=
  if existsb (Listener_eqb l) window then window else window ++ [l].

Definition removeEventListener (l : Listener) (window : list Listener)
  : list Listener :=
  filter (fun registered => negb (Listener_eqb l registered)) window.

(** Line 49: [{ capture: true }]. *)
Definition ACTIVATION_EVENT_OPTIONS : bool := true.

(** Lines 144-146: the body of the effect. *)
Definition addActivationListeners (handleActivityThrottled : nat)
    (window : list Listener) : list Listener :=
  fold_left
    (fun window eventName =>
       addEventListener
         (mkListener eventName handleActivityThrottled ACTIVATION_EVENT_OPTIONS)
         window)
    ACTIVATION_EVENT_NAMES window.

(** Lines 148-152: the cleanup the effect returns. *)
Definition removeActivationListeners (handleActivityThrottled : nat)
    (window : list Listener) : list Listener :=
  fold_left
    (fun window eventName =>
       removeEventListener
         (mkListener eventName handleActivityThrottled ACTIVATION_EVENT_OPTIONS)
         window)
    ACTIVATION_EVENT_NAMES window.

(** A listener this component registers. *)
Definition isActivationListener (handleActivityThrottled : nat) (l : Listener)
  : bool :=
  existsb (String.eqb (eventName l)) ACTIVATION_EVENT_NAMES
  && Nat.eqb (callback l) handleActivityThrottled
  && Bool.eqb (capture l) ACTIVATION_EVENT_OPTIONS.

(** ** Reading a state *)

(** The message of line 120. *)
Definition WRONG_PASSWORD : string := "Wrong password, please try again.".

(** The overlay is rendered exactly while the session is locked or the exit
    transition runs, and no exit transition runs on a locked session. *)
Definition overlayConsistent (st : State) : bool :=
  Bool.eqb (shouldRenderUi st) (isLocked st || closeTimeout st)
  && negb (isLocked st && closeTimeout st).



(** A series of submissions. *)
Definition submissions (attempts : list (string * option bool)) : list Event :=
  map (fun attempt => SubmitPassword (fst attempt) (snd attempt)) attempts.

(** Three failed attempts. *)
Definition threeWrongAttempts : list (string * option bool) :=
  [("1234", Some false); ("0000", None); ("4321", Some false)].

(** A settings object with password authentication, and one with an
    authenticator of another kind. *)
Definition settingsPassword : Settings :=
  mkSettings (Some (mkAuthConfig "password")) (Some "1").

Definition settingsWebAuthn : Settings :=
  mkSettings (Some (mkAuthConfig "webauthn")) (Some "1").

(** A window on which other code listens already. *)
Definition windowWithOthers : list Listener :=
  [mkListener "click" 7 false; mkListener "focus" 3 true;
   mkListener "keydown" 1 false].

(** ** Proof support *)

Ltac unfold_actions :=
  unfold dispatch, useShowTransition, intervalCallback, handleActivity,
    handleSubmitPassword, handlePasswordChange,
    handleChangeSlideForBiometricAuth, handleLock, afterUnlockCallback,
    andThen, when, skip, call, lock, unlock, showUi, hideUi, setIsLocked,
    setShouldRenderUi, setLastActivityTime, setSlideForBiometricAuth,
    setPasswordError, setCloseTimeout in *.

(** Case analysis on the innermost conditions first. *)
Ltac split_bool_in_goal :=
  match goal with
  | |- context [if ?b then _ else _] =>
      lazymatch b with
      | context [if _ then _ else _] => fail
      | _ => destruct b eqn:?; simpl in *
      end
  end.

Ltac split_bools := repeat split_bool_in_goal.

Section Properties.

Variable env : Env.
Variable props : StateProps.

Lemma autolockEnabled_true_iff :
  autolockEnabled props = true <->
  autolockValueOrDefault props <> "never"
  /\ truthy (isHardwareAccount props) = false.
Proof.
  unfold autolockEnabled.
  rewrite andb_true_iff, !negb_true_iff.
  rewrite <- not_true_iff_false, String.eqb_eq. tauto.
Qed.

Lemma autolockEnabled_false_iff :
  autolockEnabled props = false <->
  autolockValueOrDefault props = "never"
  \/ truthy (isHardwareAccount props) = true.
Proof.
  unfold autolockEnabled.
  rewrite andb_false_iff, !negb_false_iff, String.eqb_eq. tauto.
Qed.

(** With the guard of [handleLock] off, no event changes the lock flag of
    an unlocked session. *)
Lemma step_keeps_unlocked (st st' : State) (ev : Event) :
  autolockEnabled props = false ->
  isLocked st = false ->
  step env props st ev = Some st' ->
  isLocked st' = false.
Proof.
  intros G U H.
  destruct ev; simpl in H;
    try match goal with
      | slot : BackgroundSlot |- _ => destruct slot; simpl in H
      end;
    repeat match type of H with
      | context [match ?x with _ => _ end] => destruct x eqn:?; try discriminate
      end;
    inversion H; subst; clear H; auto;
    unfold_actions; simpl; rewrite ?G, ?U; simpl;
    split_bools; rewrite ?U; simpl; congruence.
Qed.

Lemma run_keeps_unlocked (evs : list Event) :
  autolockEnabled props = false ->
  forall st st',
    isLocked st = false ->
    run env props st evs = Some st' ->
    isLocked st' = false.
Proof.
  intros G. induction evs as [| ev evs IH]; intros st st' U H; simpl in H.
  - inversion H; subst; assumption.
  - destruct (step env props st ev) as [st1 |] eqn:S1; [| discriminate].
    eapply IH; [| exact H]. eapply step_keeps_unlocked; eauto.
Qed.

(** C1. At startup the session is locked exactly when the autolock value
    (after the default of the destructuring) is not 'never' and the
    account is not a hardware account; in every other configuration it is
    unlocked.  The lock overlay starts in the same state. *)
Theorem startup_lock_state (now : Z) (backgroundModeActive : bool) :
  let st := initialState props now backgroundModeActive in
  (isLocked st = true <->
     autolockValueOrDefault props <> "never"
     /\ truthy (isHardwareAccount props) = false)
  /\ (isLocked st = false <->
        autolockValueOrDefault props = "never"
        \/ truthy (isHardwareAccount props) = true)
  /\ shouldRenderUi st = isLocked st
  /\ forall st', mount env props now backgroundModeActive = Some st' -> st' = st.
Proof.
  simpl.
  split; [apply autolockEnabled_true_iff |].
  split; [apply autolockEnabled_false_iff |].
  split; [reflexivity |].
  intros st'. unfold mount.
  destruct (autolockPeriod env props); congruence.
Qed.

(** C2. With a hardware account or the value 'never', [handleLock] never
    sets the lock flag, and the session that starts unlocked stays
    unlocked after every sequence of events, whatever times the activity
    events and the ticks of the interval carry. *)
Theorem never_or_hardware_stays_unlocked
    (now : Z) (backgroundModeActive : bool) (evs : list Event)
    (st0 st : State) :
  autolockValueOrDefault props = "never"
  \/ truthy (isHardwareAccount props) = true ->
  mount env props now backgroundModeActive = Some st0 ->
  run env props st0 evs = Some st ->
  isLocked st0 = false
  /\ isLocked st = false
  /\ forall inAppBrowser s,
       isLocked (handleLock env props inAppBrowser s) = isLocked s.
Proof.
  intros G M R. apply autolockEnabled_false_iff in G.
  assert (U0 : isLocked st0 = false).
  { unfold mount in M. destruct (autolockPeriod env props); [| discriminate].
    inversion M; subst. simpl. assumption. }
  split; [assumption |]. split.
  - eapply run_keeps_unlocked; eauto.
  - intros b s. unfold_actions. rewrite G. reflexivity.
Qed.

(** In a delegated bottom sheet nothing unlocks: the form is not rendered
    and no interval runs, so a session that is locked stays locked. *)
Lemma delegated_step_stays_locked (st st' : State) (ev : Event) :
  IS_DELEGATED_BOTTOM_SHEET env = true ->
  isLocked st = true /\ closeTimeout st = false ->
  step env props st ev = Some st' ->
  isLocked st' = true /\ closeTimeout st' = false.
Proof.
  intros D [L C] H.
  destruct ev; simpl in H; unfold intervalEffect, render in H;
    rewrite ?D, ?C in H; simpl in H;
    try match goal with
      | slot : BackgroundSlot |- _ => destruct slot; simpl in H
      end;
    try discriminate;
    repeat match type of H with
      | context [match ?x with _ => _ end] => destruct x eqn:?; try discriminate
      end;
    inversion H; subst; clear H; auto;
    unfold_actions; simpl; rewrite ?D, ?L; simpl;
    split_bools; rewrite ?L; simpl; auto.
Qed.

Lemma delegated_run_stays_locked (evs : list Event) :
  IS_DELEGATED_BOTTOM_SHEET env = true ->
  forall st st',
    isLocked st = true /\ closeTimeout st = false ->
    run env props st evs = Some st' ->
    isLocked st' = true /\ closeTimeout st' = false.
Proof.
  intros D. induction evs as [| ev evs IH]; intros st st' I H; simpl in H.
  - inversion H; subst; assumption.
  - destruct (step env props st ev) as [st1 |] eqn:S1; [| discriminate].
    eapply IH; [| exact H]. eapply delegated_step_stays_locked; eauto.
Qed.

(** Rendering an unlocked session that was unlocked before changes
    nothing. *)
Lemma useShowTransition_unlocked (st : State) :
  isLocked st = false -> useShowTransition false st = st.
Proof. intros U. unfold useShowTransition. rewrite U. reflexivity. Qed.

(** What [handleLock] leaves, by the value of its guard. *)
Lemma handleLock_state (inAppBrowser : bool) (st : State) :
  handleLock env props inAppBrowser st
  = if autolockEnabled props
    then mkState true true (lastActivityTime st) button (passwordError st)
           (closeTimeout st) (calls st ++ lockCalls env inAppBrowser)
    else setSlideForBiometricAuth button st.
Proof.
  unfold handleLock, lockCalls, andThen, when, call, lock, showUi,
    setIsLocked, setShouldRenderUi, setSlideForBiometricAuth.
  destruct (autolockEnabled props); [| reflexivity].
  destruct inAppBrowser, (IS_DELEGATING_BOTTOM_SHEET env); simpl;
    rewrite <- ?app_assoc, ?app_nil_r; reflexivity.
Qed.

(** The body of the interval, by the value of its test. *)
Lemma intervalCallback_state (p now : Z) (inAppBrowser : bool) (st : State) :
  intervalCallback env props p now inAppBrowser st
  = if negb (isLocked st) && (now - lastActivityTime st >? p)
    then handleLock env props inAppBrowser st
    else st.
Proof. reflexivity. Qed.

(** The body of the interval locks an unlocked session whose idle time is
    strictly above the period, when the guard of [handleLock] is on. *)
Lemma interval_tick_locks (st : State) (p now : Z) (inAppBrowser : bool) :
  IS_DELEGATED_BOTTOM_SHEET env = false ->
  autolockEnabled props = true ->
  autolockPeriod env props = Some p ->
  isLocked st = false ->
  now - lastActivityTime st > p ->
  exists st',
    step env props st (IntervalTick now inAppBrowser) = Some st'
    /\ isLocked st' = true
    /\ shouldRenderUi st' = true
    /\ slideForBiometricAuth st' = button.
Proof.
  intros D G P U I. simpl. unfold intervalEffect. rewrite D, P.
  eexists; split; [reflexivity |].
  assert (T : (now - lastActivityTime st >? p) = true) by (apply Z.gtb_lt; lia).
  unfold dispatch.
  rewrite intervalCallback_state, U, T, handleLock_state, G.
  simpl. auto.
Qed.

(** An interval set at time [s] fires at [s + k * INTERVAL_CHECK_PERIOD]
    for k = 1, 2, ...; one of these times lies within one period after any
    time [t] from [s] on. *)
Lemma interval_fires_within_period (s t : Z) :
  s <= t ->
  exists k,
    1 <= k
    /\ t < s + k * INTERVAL_CHECK_PERIOD <= t + INTERVAL_CHECK_PERIOD.
Proof.
  intros H. unfold INTERVAL_CHECK_PERIOD.
  exists ((t - s) / 5000 + 1).
  pose proof (Z.div_mod (t - s) 5000 ltac:(lia)) as E.
  pose proof (Z.mod_pos_bound (t - s) 5000 ltac:(lia)) as B.
  assert (0 <= (t - s) / 5000) by (apply Z.div_pos; lia).
  lia.
Qed.

(** C3. For a value other than 'never' and an account that is not a
    hardware account: in every state the component can reach in which the
    session is unlocked and the time since the last recorded activity is
    strictly above the period, the interval is registered with a period of
    5000 ms, its next tick comes at most 5000 ms later, and that tick
    locks the session and shows the overlay. *)
Theorem idle_session_locks_within_check_period
    (now0 : Z) (backgroundModeActive : bool) (evs : list Event)
    (st0 st : State) (p s t : Z) (inAppBrowser : bool) :
  autolockValueOrDefault props <> "never" ->
  truthy (isHardwareAccount props) = false ->
  mount env props now0 backgroundModeActive = Some st0 ->
  run env props st0 evs = Some st ->
  autolockPeriod env props = Some p ->
  isLocked st = false ->
  t - lastActivityTime st > p ->
  s <= t ->
  intervalEffect env = Some 5000
  /\ exists k st',
       1 <= k
       /\ t < s + k * INTERVAL_CHECK_PERIOD <= t + 5000
       /\ step env props st
            (IntervalTick (s + k * INTERVAL_CHECK_PERIOD) inAppBrowser)
          = Some st'
       /\ isLocked st' = true
       /\ shouldRenderUi st' = true.
Proof.
  intros N Hw M R P U I S.
  assert (G : autolockEnabled props = true)
    by (apply autolockEnabled_true_iff; auto).
  assert (D : IS_DELEGATED_BOTTOM_SHEET env = false).
  { destruct (IS_DELEGATED_BOTTOM_SHEET env) eqn:D; [| reflexivity].
    exfalso.
    assert (I0 : isLocked st0 = true /\ closeTimeout st0 = false).
    { unfold mount in M. rewrite P in M. inversion M; subst. simpl. auto. }
    destruct (delegated_run_stays_locked evs D st0 st I0 R) as [L _].
    congruence. }
  split; [unfold intervalEffect; rewrite D; reflexivity |].
  destruct (interval_fires_within_period s t S) as (k & K1 & K2).
  destruct (interval_tick_locks st p (s + k * INTERVAL_CHECK_PERIOD)
              inAppBrowser D G P U ltac:(lia)) as (st' & S1 & L & R1 & _).
  exists k, st'. unfold INTERVAL_CHECK_PERIOD in *. repeat split; auto; lia.
Qed.

(** In a delegated bottom sheet no event writes [lastActivityTime]. *)
Lemma delegated_step_keeps_lastActivityTime (st st' : State) (ev : Event) :
  IS_DELEGATED_BOTTOM_SHEET env = true ->
  step env props st ev = Some st' ->
  lastActivityTime st' = lastActivityTime st.
Proof.
  intros D H.
  destruct ev; simpl in H; unfold intervalEffect, render in H;
    rewrite ?D in H; simpl in H;
    try match goal with
      | slot : BackgroundSlot |- _ => destruct slot; simpl in H
      end;
    try discriminate;
    repeat match type of H with
      | context [match ?x with _ => _ end] => destruct x eqn:?; try discriminate
      end;
    inversion H; subst; clear H; auto;
    unfold_actions; simpl; rewrite ?D; simpl;
    split_bools; auto.
Qed.

(** C4. A throttled activity event in a delegated bottom sheet calls
    [submitAppLockActivityEvent] and leaves [lastActivityTime] as it was;
    in any other context it stores the current time in [lastActivityTime]
    and calls nothing.  In a delegated bottom sheet no sequence of events
    changes [lastActivityTime]. *)
Theorem activity_forwarded_or_recorded :
  (forall st now,
     exists st',
       step env props st (WindowActivity now) = Some st'
       /\ isLocked st' = isLocked st
       /\ if IS_DELEGATED_BOTTOM_SHEET env
          then lastActivityTime st' = lastActivityTime st
               /\ calls st' = calls st ++ [submitAppLockActivityEvent]
          else lastActivityTime st' = now
               /\ calls st' = calls st)
  /\ (IS_DELEGATED_BOTTOM_SHEET env = true ->
      forall evs st st',
        run env props st evs = Some st' ->
        lastActivityTime st' = lastActivityTime st).
Proof.
  split.
  - intros st now. simpl. eexists; split; [reflexivity |].
    unfold_actions.
    destruct (IS_DELEGATED_BOTTOM_SHEET env); simpl;
      destruct (isLocked st); simpl; auto.
  - intros D evs. induction evs as [| ev evs IH]; intros st st' H; simpl in H.
    + inversion H; reflexivity.
    + destruct (step env props st ev) as [st1 |] eqn:S1; [| discriminate].
      rewrite (IH _ _ H).
      eapply delegated_step_keeps_lastActivityTime; eauto.
Qed.

(** C5. From a locked session, [handleSubmitPassword] unlocks exactly when
    the verification resolves to [true].  Otherwise the session stays
    locked and the error is the fixed wrong-password message; a
    verification that resolves to [undefined] gives the same state as one
    that resolves to [false]. *)
Theorem submit_password_unlocks_iff_accepted
    (st : State) (password : string) (result : option bool) :
  isLocked st = true ->
  let st' := dispatch (handleSubmitPassword env password result) st in
  (isLocked st' = false <-> result = Some true)
  /\ (result <> Some true ->
      isLocked st' = true
      /\ passwordError st' = "Wrong password, please try again."
      /\ shouldRenderUi st' = shouldRenderUi st)
  /\ dispatch (handleSubmitPassword env password None) st
     = dispatch (handleSubmitPassword env password (Some false)) st.
Proof.
  intros L. simpl.
  split; [| split].
  - unfold_actions.
    destruct result as [[|] |]; simpl; rewrite ?L; simpl;
      split_bools; split; intros; congruence.
  - intros R. unfold_actions.
    destruct result as [[|] |]; simpl; rewrite ?L; simpl;
      try congruence; auto.
  - reflexivity.
Qed.

(** The state a rejected submission leaves. *)
Lemma rejected_submission_state
    (st : State) (password : string) (result : option bool) :
  truthy result = false ->
  dispatch (handleSubmitPassword env password result) st
  = (if isLocked st then setCloseTimeout false else skip)
      (setPasswordError "Wrong password, please try again."
         (call (callApi_verifyPassword password) st)).
Proof.
  intros T.
  unfold dispatch, useShowTransition, handleSubmitPassword, andThen.
  rewrite T. simpl.
  destruct (isLocked st) eqn:L; simpl; reflexivity.
Qed.

(** C6. A submission that the verification rejects changes neither
    [lastActivityTime] nor the lock flag nor the overlay flag, so the idle
    time measured at any instant is the same before and after; the only
    call made is the verification itself, and on a locked session the
    body of the interval still does nothing. *)
Theorem rejected_submission_keeps_idle_time
    (st : State) (password : string) (result : option bool) :
  result <> Some true ->
  let st' := dispatch (handleSubmitPassword env password result) st in
  lastActivityTime st' = lastActivityTime st
  /\ (forall now, now - lastActivityTime st' = now - lastActivityTime st)
  /\ isLocked st' = isLocked st
  /\ shouldRenderUi st' = shouldRenderUi st
  /\ slideForBiometricAuth st' = slideForBiometricAuth st
  /\ calls st' = calls st ++ [callApi_verifyPassword password]
  /\ (isLocked st = true ->
      forall p now inAppBrowser,
        intervalCallback env props p now inAppBrowser st' = st').
Proof.
  intros R.
  assert (T : truthy result = false)
    by (destruct result as [[|] |]; simpl; congruence).
  cbv zeta. rewrite (rejected_submission_state st password result T).
  unfold intervalCallback.
  destruct (isLocked st) eqn:L; simpl; rewrite ?L;
    repeat split; auto; intros; discriminate.
Qed.

Lemma count_app (c : Call) (l1 l2 : list Call) :
  count c (l1 ++ l2) = (count c l1 + count c l2)%nat.
Proof.
  induction l1 as [| d l1 IH]; simpl; [reflexivity |].
  destruct (Call_eqb c d); rewrite IH; reflexivity.
Qed.

(** What [afterUnlockCallback] leaves. *)
Lemma afterUnlockCallback_state (inAppBrowser : bool) (st : State) :
  afterUnlockCallback env inAppBrowser st
  = mkState (isLocked st) false (lastActivityTime st) button
      (passwordError st) (closeTimeout st)
      (calls st ++ afterUnlockCalls env inAppBrowser).
Proof.
  unfold afterUnlockCallback, afterUnlockCalls, andThen, when, call, hideUi,
    setShouldRenderUi, setSlideForBiometricAuth.
  destruct inAppBrowser, (IS_DELEGATING_BOTTOM_SHEET env); simpl;
    rewrite <- ?app_assoc, ?app_nil_r; reflexivity.
Qed.

(** [unlock()] on a locked session starts the exit transition. *)
Lemma dispatch_unlock_state (st : State) :
  isLocked st = true ->
  dispatch unlock st
  = mkState false (shouldRenderUi st) (lastActivityTime st)
      (slideForBiometricAuth st) (passwordError st) true (calls st).
Proof.
  intros L. unfold dispatch, useShowTransition, unlock, setIsLocked.
  rewrite L. reflexivity.
Qed.

(** C7. [unlock()] on a locked session clears the lock flag at once, makes
    no call and leaves the overlay rendered while the exit transition
    runs.  When the transition ends, [afterUnlockCallback] runs: the
    overlay is no longer rendered, the slide is back on the button, and
    the calls made are, in this order, [show] on the in-app browser (when
    there is one), [clearIsPinAccepted], and [BottomSheet.show] in a
    delegating window, each once.  The callback does not run a second
    time. *)
Theorem unlock_then_after_unlock_callback (st : State) (inAppBrowser : bool) :
  isLocked st = true ->
  let st1 := dispatch unlock st in
  isLocked st1 = false
  /\ shouldRenderUi st1 = shouldRenderUi st
  /\ calls st1 = calls st
  /\ exists st2,
       step env props st1 (CloseTransitionEnd inAppBrowser) = Some st2
       /\ isLocked st2 = false
       /\ shouldRenderUi st2 = false
       /\ slideForBiometricAuth st2 = button
       /\ lastActivityTime st2 = lastActivityTime st
       /\ calls st2 = calls st ++ afterUnlockCalls env inAppBrowser
       /\ count InAppBrowser_show (calls st2)
          = (count InAppBrowser_show (calls st)
             + if inAppBrowser then 1 else 0)%nat
       /\ count clearIsPinAccepted (calls st2)
          = (count clearIsPinAccepted (calls st) + 1)%nat
       /\ count BottomSheet_show (calls st2)
          = (count BottomSheet_show (calls st)
             + if IS_DELEGATING_BOTTOM_SHEET env then 1 else 0)%nat
       /\ forall b, step env props st2 (CloseTransitionEnd b) = None.
Proof.
  intros L. cbv zeta. rewrite (dispatch_unlock_state st L). simpl.
  repeat (split; [reflexivity |]).
  eexists. split; [reflexivity |].
  rewrite afterUnlockCallback_state. simpl.
  repeat (split; [reflexivity |]).
  rewrite !count_app. unfold afterUnlockCalls.
  repeat split;
    destruct inAppBrowser, (IS_DELEGATING_BOTTOM_SHEET env); reflexivity.
Qed.

(** C8, as the code has it.  Whether the interval is registered depends on
    the context alone: it is registered in every context that is not a
    delegated bottom sheet, also with the value 'never' or a hardware
    account.  With either of these its ticks run, but they change nothing
    except the slide, which they may put back on the button. *)
Theorem interval_registered_unless_delegated :
  (intervalEffect env = None <-> IS_DELEGATED_BOTTOM_SHEET env = true)
  /\ (IS_DELEGATED_BOTTOM_SHEET env = false ->
      intervalEffect env = Some INTERVAL_CHECK_PERIOD)
  /\ (IS_DELEGATED_BOTTOM_SHEET env = false ->
      autolockValueOrDefault props = "never"
      \/ truthy (isHardwareAccount props) = true ->
      forall p st now inAppBrowser,
        autolockPeriod env props = Some p ->
        isLocked st = false ->
        exists st',
          step env props st (IntervalTick now inAppBrowser) = Some st'
          /\ isLocked st' = false
          /\ shouldRenderUi st' = shouldRenderUi st
          /\ lastActivityTime st' = lastActivityTime st
          /\ calls st' = calls st
          /\ slideForBiometricAuth st'
             = if now - lastActivityTime st >? p
               then button else slideForBiometricAuth st).
Proof.
  unfold intervalEffect. split; [| split].
  - destruct (IS_DELEGATED_BOTTOM_SHEET env); split; congruence.
  - intros D. rewrite D. reflexivity.
  - intros D G p st now b P U. apply autolockEnabled_false_iff in G.
    simpl. unfold intervalEffect. rewrite D, P.
    eexists; split; [reflexivity |].
    unfold dispatch.
    rewrite intervalCallback_state, U, handleLock_state, G. simpl.
    destruct (now - lastActivityTime st >? p); simpl;
      rewrite useShowTransition_unlocked by exact U; simpl; auto 10.
Qed.

(** C9, as the code has it.  The only callback handed to
    [useBackgroundMode] is [handleChangeSlideForBiometricAuth], in second
    position; when it runs the slide becomes the password form, whatever
    the state was, and nothing else changes.  The first position is
    [undefined], for which nothing runs.  No notification of the hook puts
    the slide on the button. *)
Theorem background_mode_shows_password_form (st : State) :
  step env props st (BackgroundMode onBlur) = Some st
  /\ (exists st',
        step env props st (BackgroundMode onFocus) = Some st'
        /\ slideForBiometricAuth st' = passwordForm
        /\ isLocked st' = isLocked st
        /\ shouldRenderUi st' = shouldRenderUi st
        /\ lastActivityTime st' = lastActivityTime st
        /\ passwordError st' = passwordError st
        /\ calls st' = calls st)
  /\ forall slot st',
       step env props st (BackgroundMode slot) = Some st' ->
       slideForBiometricAuth st = passwordForm ->
       slideForBiometricAuth st' = passwordForm.
Proof.
  split; [reflexivity |]. split.
  - simpl. eexists; split; [reflexivity |].
    unfold_actions. simpl. destruct (isLocked st); simpl; auto 10.
  - intros slot st' H S. destruct slot; simpl in H; inversion H; subst; auto.
    unfold_actions. simpl. destruct (isLocked st); reflexivity.
Qed.

(** C10. [handleLock] always leaves the slide on the button.  When its
    guard fails (value 'never' or hardware account) it changes nothing
    else: lock flag, overlay flag and calls are as before.  When the
    [autolockValue] prop is absent the value is 'never': the component
    starts unlocked and the guard of [handleLock] fails. *)
Theorem handle_lock_always_resets_slide (st : State) (inAppBrowser : bool) :
  slideForBiometricAuth (handleLock env props inAppBrowser st) = button
  /\ (autolockValueOrDefault props = "never"
      \/ truthy (isHardwareAccount props) = true ->
      handleLock env props inAppBrowser st
      = setSlideForBiometricAuth button st
      /\ isLocked (handleLock env props inAppBrowser st) = isLocked st
      /\ shouldRenderUi (handleLock env props inAppBrowser st)
         = shouldRenderUi st
      /\ calls (handleLock env props inAppBrowser st) = calls st)
  /\ (autolockValue props = None ->
      autolockValueOrDefault props = "never"
      /\ autolockEnabled props = false
      /\ forall now backgroundModeActive,
           isLocked (initialState props now backgroundModeActive) = false).
Proof.
  split; [| split].
  - unfold_actions. split_bools; reflexivity.
  - intros G. apply autolockEnabled_false_iff in G.
    unfold_actions. rewrite G. simpl. auto.
  - intros A.
    assert (N : autolockValueOrDefault props = "never")
      by (unfold autolockValueOrDefault; rewrite A; reflexivity).
    assert (G : autolockEnabled props = false)
      by (apply autolockEnabled_false_iff; auto).
    repeat split; auto.
Qed.

End Properties.

(** ** The theorems at concrete configurations *)

(** A web session on the 30-second setting that starts at time 1000. *)
Lemma startup_lock_state_witness :
  isLocked (initialState propsThirtySeconds 1000 false) = true
  /\ isLocked (initialState propsHardware 1000 false) = false.
Proof.
  split.
  - destruct (startup_lock_state envWeb propsThirtySeconds 1000 false)
      as (H & _).
    apply H. split; [discriminate | reflexivity].
  - destruct (startup_lock_state envWeb propsHardware 1000 false)
      as (_ & H & _).
    apply H. right; reflexivity.
Defined.

Lemma never_or_hardware_stays_unlocked_witness :
  exists st,
    run envDebug propsNever (initialState propsNever 1000 false) traceNever
    = Some st
    /\ isLocked st = false.
Proof.
  eexists. split.
  - vm_compute. reflexivity.
  - eapply (never_or_hardware_stays_unlocked envDebug propsNever 1000 false
              traceNever (initialState propsNever 1000 false)).
    + left; reflexivity.
    + reflexivity.
    + vm_compute. reflexivity.
Defined.

Lemma idle_session_locks_within_check_period_witness :
  intervalEffect envWeb = Some 5000
  /\ exists k st',
       1 <= k
       /\ 31001 < 2000 + k * INTERVAL_CHECK_PERIOD <= 31001 + 5000
       /\ step envWeb propsThirtySeconds
            (mkState false false 1000 button "" false
               [callApi_verifyPassword "secret"; clearIsPinAccepted])
            (IntervalTick (2000 + k * INTERVAL_CHECK_PERIOD) false)
          = Some st'
       /\ isLocked st' = true
       /\ shouldRenderUi st' = true.
Proof.
  apply (idle_session_locks_within_check_period envWeb propsThirtySeconds
           1000 false traceUnlock
           (initialState propsThirtySeconds 1000 false)
           (mkState false false 1000 button "" false
              [callApi_verifyPassword "secret"; clearIsPinAccepted])
           30000 2000 31001 false).
  - discriminate.
  - reflexivity.
  - reflexivity.
  - vm_compute. reflexivity.
  - reflexivity.
  - reflexivity.
  - simpl. lia.
  - lia.
Defined.

Lemma activity_forwarded_or_recorded_witness :
  (exists st',
     step envDelegated propsThirtySeconds lockedOnPasswordForm
       (WindowActivity 7000) = Some st'
     /\ lastActivityTime st' = 1000
     /\ calls st' = [submitAppLockActivityEvent])
  /\ exists st',
       step envWeb propsThirtySeconds lockedOnPasswordForm
         (WindowActivity 7000) = Some st'
       /\ lastActivityTime st' = 7000
       /\ calls st' = [].
Proof.
  split.
  - destruct (activity_forwarded_or_recorded envDelegated propsThirtySeconds)
      as [H _].
    destruct (H lockedOnPasswordForm 7000) as (st' & S & _ & T & C).
    exists st'. auto.
  - destruct (activity_forwarded_or_recorded envWeb propsThirtySeconds)
      as [H _].
    destruct (H lockedOnPasswordForm 7000) as (st' & S & _ & T & C).
    exists st'. auto.
Defined.

Lemma submit_password_unlocks_iff_accepted_witness :
  isLocked (dispatch (handleSubmitPassword envWeb "secret" (Some true))
              lockedOnPasswordForm) = false
  /\ isLocked (dispatch (handleSubmitPassword envWeb "guess" None)
                 lockedOnPasswordForm) = true.
Proof.
  split.
  - apply (submit_password_unlocks_iff_accepted envWeb lockedOnPasswordForm
             "secret" (Some true)); reflexivity.
  - apply (submit_password_unlocks_iff_accepted envWeb lockedOnPasswordForm
             "guess" None); [reflexivity | discriminate].
Defined.

Lemma rejected_submission_keeps_idle_time_witness :
  lastActivityTime
    (dispatch (handleSubmitPassword envWeb "guess" (Some false))
       lockedOnPasswordForm) = 1000.
Proof.
  apply (rejected_submission_keeps_idle_time envWeb propsThirtySeconds
           lockedOnPasswordForm "guess" (Some false)).
  discriminate.
Defined.

Lemma unlock_then_after_unlock_callback_witness :
  exists st2,
    step envDelegating propsThirtySeconds (dispatch unlock lockedOnPasswordForm)
      (CloseTransitionEnd true) = Some st2
    /\ shouldRenderUi st2 = false
    /\ calls st2 = [InAppBrowser_show; clearIsPinAccepted; BottomSheet_show].
Proof.
  destruct (unlock_then_after_unlock_callback envDelegating propsThirtySeconds
              lockedOnPasswordForm true eq_refl)
    as (_ & _ & _ & st2 & S & _ & R & _ & _ & C & _).
  exists st2. auto.
Defined.

Lemma interval_registered_unless_delegated_witness :
  intervalEffect envWeb = Some INTERVAL_CHECK_PERIOD
  /\ exists st',
       step envWeb propsHardware unlockedIdle (IntervalTick 900000 true)
       = Some st'
       /\ isLocked st' = false
       /\ calls st' = [].
Proof.
  destruct (interval_registered_unless_delegated envWeb propsHardware)
    as (_ & H1 & H2).
  split; [apply H1; reflexivity |].
  destruct (H2 eq_refl (or_intror eq_refl) 180000 unlockedIdle 900000 true
              eq_refl eq_refl) as (st' & S & L & _ & _ & C & _).
  exists st'. auto.
Defined.

Lemma background_mode_shows_password_form_witness :
  exists st',
    step envWeb propsBiometric lockedOnButton (BackgroundMode onFocus) = Some st'
    /\ slideForBiometricAuth st' = passwordForm.
Proof.
  destruct (background_mode_shows_password_form envWeb propsBiometric
              lockedOnButton) as (_ & (st' & S & P & _) & _).
  exists st'. auto.
Defined.

Lemma handle_lock_always_resets_slide_witness :
  handleLock envWeb propsAbsent true unlockedIdle
  = setSlideForBiometricAuth button unlockedIdle
  /\ isLocked (initialState propsAbsent 1000 false) = false.
Proof.
  destruct (handle_lock_always_resets_slide envWeb propsAbsent unlockedIdle true)
    as (_ & H & A).
  split.
  - apply H. left; reflexivity.
  - apply A. reflexivity.
Defined.

(** ** Counterexamples *)

(** C8 does not hold as stated: on the setting 'never', in a web window, the
    interval is registered, and its tick runs [handleLock], which moves the
    slide of an unlocked session from the password form to the button. *)
Lemma interval_registered_with_never :
  autolockValueOrDefault propsNever = "never"
  /\ intervalEffect envWeb = Some 5000
  /\ intervalEffect envWeb <> None
  /\ step envWeb propsNever unlockedIdle (IntervalTick 6000 false)
     = Some (mkState false false 1000 button "" false [])
  /\ truthy (isHardwareAccount propsHardware) = true
  /\ step envWeb propsHardware unlockedIdle (IntervalTick 900000 false)
     = Some (mkState false false 1000 button "" false []).
Proof.
  repeat split; try reflexivity. discriminate.
Qed.

(** C9 does not hold as stated: in the locked state with the password form,
    neither notification of the background-mode hook puts the slide on the
    button, and in the locked state with the button the return to the
    foreground changes the slide. *)
Lemma background_mode_never_resets_to_button :
  isLocked lockedOnPasswordForm = true
  /\ slideForBiometricAuth lockedOnPasswordForm = passwordForm
  /\ step envWeb propsBiometric lockedOnPasswordForm (BackgroundMode onBlur)
     = Some lockedOnPasswordForm
  /\ step envWeb propsBiometric lockedOnPasswordForm (BackgroundMode onFocus)
     = Some lockedOnPasswordForm
  /\ slideForBiometricAuth lockedOnPasswordForm <> button
  /\ step envWeb propsBiometric lockedOnButton (BackgroundMode onFocus)
     = Some lockedOnPasswordForm
  /\ lockedOnPasswordForm <> lockedOnButton.
Proof.
  repeat split; try reflexivity; discriminate.
Qed.

(** ** Further properties of the component *)

Ltac step_cases H :=
  simpl in H;
  try match goal with
    | slot : BackgroundSlot |- _ => destruct slot; simpl in H
    end;
  repeat match type of H with
    | context [match ?x with _ => _ end] => destruct x eqn:?; try discriminate
    end;
  inversion H; subst; clear H.

Section MoreProperties.

Variable env : Env.
Variable props : StateProps.

(** A property kept by every step holds after every run. *)
Lemma run_invariant (P : State -> Prop) :
  (forall st ev st', P st -> step env props st ev = Some st' -> P st') ->
  forall evs st st', P st -> run env props st evs = Some st' -> P st'.
Proof.
  intros K. induction evs as [| ev evs IH]; intros st st' I H; simpl in H.
  - inversion H; subst; assumption.
  - destruct (step env props st ev) as [st1 |] eqn:S1; [| discriminate].
    eapply IH; [| exact H]. eapply K; eauto.
Qed.

(** *** The three flags after each handler *)

Lemma useShowTransition_isLocked (w : bool) (st : State) :
  isLocked (useShowTransition w st) = isLocked st.
Proof.
  unfold useShowTransition. destruct (isLocked st) eqn:L, w; simpl; auto.
Qed.

Lemma useShowTransition_shouldRenderUi (w : bool) (st : State) :
  shouldRenderUi (useShowTransition w st) = shouldRenderUi st.
Proof.
  unfold useShowTransition. destruct (isLocked st), w; reflexivity.
Qed.

Lemma useShowTransition_closeTimeout (w : bool) (st : State) :
  closeTimeout (useShowTransition w st)
  = if isLocked st then false else if w then true else closeTimeout st.
Proof.
  unfold useShowTransition. destruct (isLocked st), w; reflexivity.
Qed.

Lemma handleActivity_flags (now : Z) (st : State) :
  isLocked (handleActivity env now st) = isLocked st
  /\ shouldRenderUi (handleActivity env now st) = shouldRenderUi st
  /\ closeTimeout (handleActivity env now st) = closeTimeout st.
Proof.
  unfold handleActivity. destruct (IS_DELEGATED_BOTTOM_SHEET env); auto.
Qed.

Lemma handleLock_flags (inAppBrowser : bool) (st : State) :
  isLocked (handleLock env props inAppBrowser st)
  = (autolockEnabled props || isLocked st)
  /\ shouldRenderUi (handleLock env props inAppBrowser st)
     = (autolockEnabled props || shouldRenderUi st)
  /\ closeTimeout (handleLock env props inAppBrowser st) = closeTimeout st.
Proof.
  rewrite handleLock_state. destruct (autolockEnabled props); auto.
Qed.

Lemma handleSubmitPassword_flags
    (password : string) (result : option bool) (st : State) :
  isLocked (handleSubmitPassword env password result st)
  = (negb (truthy result) && isLocked st)
  /\ shouldRenderUi (handleSubmitPassword env password result st)
     = shouldRenderUi st
  /\ closeTimeout (handleSubmitPassword env password result st)
     = closeTimeout st.
Proof.
  unfold handleSubmitPassword, andThen, when.
  destruct (truthy result), (IS_CAPACITOR env); auto.
Qed.

(** The sequel only looks at a state through its three flags. *)
Ltac flags :=
  unfold dispatch;
  rewrite ?useShowTransition_isLocked, ?useShowTransition_shouldRenderUi,
    ?useShowTransition_closeTimeout;
  repeat match goal with
    | |- context [handleActivity env ?n ?s] =>
        let E1 := fresh in let E2 := fresh in let E3 := fresh in
        destruct (handleActivity_flags n s) as (E1 & E2 & E3);
        progress (rewrite ?E1, ?E2, ?E3); clear E1 E2 E3
    | |- context [handleLock env props ?b ?s] =>
        let E1 := fresh in let E2 := fresh in let E3 := fresh in
        destruct (handleLock_flags b s) as (E1 & E2 & E3);
        progress (rewrite ?E1, ?E2, ?E3); clear E1 E2 E3
    | |- context [handleSubmitPassword env ?p ?r ?s] =>
        let E1 := fresh in let E2 := fresh in let E3 := fresh in
        destruct (handleSubmitPassword_flags p r s) as (E1 & E2 & E3);
        progress (rewrite ?E1, ?E2, ?E3); clear E1 E2 E3
    end.

Lemma step_overlayConsistent (st : State) (ev : Event) (st' : State) :
  overlayConsistent st = true ->
  step env props st ev = Some st' ->
  overlayConsistent st' = true.
Proof.
  unfold overlayConsistent. intros I H.
  destruct ev; step_cases H; try exact I.
  - flags. destruct (isLocked st), (shouldRenderUi st), (closeTimeout st);
      simpl in *; congruence.
  - flags. destruct (isLocked st), (shouldRenderUi st), (closeTimeout st);
      simpl in *; congruence.
  - unfold dispatch. rewrite intervalCallback_state.
    destruct (negb (isLocked st) && (now - lastActivityTime st >? z0));
      flags;
      destruct (autolockEnabled props), (isLocked st), (shouldRenderUi st),
        (closeTimeout st); simpl in *; congruence.
  - flags.
    destruct (truthy result), (isLocked st), (shouldRenderUi st),
      (closeTimeout st); simpl in *; congruence.
  - flags. simpl.
    destruct (isLocked st), (shouldRenderUi st), (closeTimeout st);
      simpl in *; congruence.
  - flags. simpl.
    destruct (isLocked st), (shouldRenderUi st), (closeTimeout st);
      simpl in *; congruence.
  - flags. simpl.
    destruct (isLocked st), (shouldRenderUi st), (closeTimeout st);
      simpl in *; congruence.
  - flags. simpl.
    destruct (isLocked st), (shouldRenderUi st), (closeTimeout st);
      simpl in *; congruence.
  - rewrite afterUnlockCallback_state. simpl.
    destruct (isLocked st), (shouldRenderUi st), (closeTimeout st);
      simpl in *; congruence.
  - flags.
    destruct (autolockEnabled props), (isLocked st), (shouldRenderUi st),
      (closeTimeout st); simpl in *; congruence.
Qed.

(** X1. In every state the component reaches, the overlay is rendered
    exactly while the session is locked or the exit transition runs; in
    particular a locked session always has the overlay rendered, and no exit
    transition runs on it. *)
Theorem overlay_rendered_while_locked
    (now : Z) (backgroundModeActive : bool) (evs : list Event)
    (st0 st : State) :
  mount env props now backgroundModeActive = Some st0 ->
  run env props st0 evs = Some st ->
  shouldRenderUi st = (isLocked st || closeTimeout st)
  /\ (isLocked st = true ->
      shouldRenderUi st = true /\ closeTimeout st = false).
Proof.
  intros M R.
  assert (I : overlayConsistent st = true).
  { apply (run_invariant (fun s => overlayConsistent s = true)
             step_overlayConsistent evs st0 st); [| exact R].
    unfold mount in M. destruct (autolockPeriod env props); [| discriminate].
    inversion M; subst. unfold overlayConsistent, initialState. simpl.
    destruct (autolockEnabled props); reflexivity. }
  unfold overlayConsistent in I.
  destruct (isLocked st), (shouldRenderUi st), (closeTimeout st);
    simpl in *; try discriminate; split; auto; intros; try discriminate; auto.
Qed.

(** X2. Nothing but an accepted password unlocks: when a step takes a
    locked session to an unlocked one, the event is a submission on the
    rendered password form whose verification resolved to [true]. *)
Theorem only_accepted_password_unlocks (st st' : State) (ev : Event) :
  isLocked st = true ->
  step env props st ev = Some st' ->
  isLocked st' = false ->
  render env props st = PasswordFormView
  /\ exists password, ev = SubmitPassword password (Some true).
Proof.
  intros L H U.
  destruct ev;
    try (exfalso; step_cases H; revert U; flags;
         rewrite ?intervalCallback_state, ?afterUnlockCallback_state; simpl;
         rewrite ?L; simpl; flags; rewrite ?L, ?orb_true_r;
         congruence).
  simpl in H.
  destruct (View_eqb (render env props st) PasswordFormView) eqn:V;
    [| discriminate].
  split.
  - destruct (render env props st); simpl in V; congruence.
  - exists password. inversion H; subst; clear H. revert U. flags.
    rewrite L. destruct result as [[|] |]; simpl; congruence.
Qed.

(** X3. The session locks only where the source says: when a step takes an
    unlocked session to a locked one, the guard of [handleLock] holds and
    the event is either a tick of the interval that finds the idle time
    strictly above the period, or a call of the debug hook in a debug
    build. *)
Theorem only_idle_tick_or_debug_hook_locks (st st' : State) (ev : Event) :
  isLocked st = false ->
  step env props st ev = Some st' ->
  isLocked st' = true ->
  autolockEnabled props = true
  /\ ((exists now inAppBrowser p,
         ev = IntervalTick now inAppBrowser
         /\ IS_DELEGATED_BOTTOM_SHEET env = false
         /\ autolockPeriod env props = Some p
         /\ now - lastActivityTime st > p)
      \/ (exists inAppBrowser, ev = WindowLock inAppBrowser /\ DEBUG env = true)).
Proof.
  intros U H L.
  destruct (autolockEnabled props) eqn:G.
  - split; [reflexivity |].
    destruct ev;
      try (exfalso; step_cases H; revert L;
           flags; try rewrite afterUnlockCallback_state; simpl;
           rewrite ?U, ?andb_false_r; congruence).
    + left. simpl in H. unfold intervalEffect in H.
      destruct (IS_DELEGATED_BOTTOM_SHEET env) eqn:D; [discriminate |].
      destruct (autolockPeriod env props) as [p |] eqn:P; [| discriminate].
      exists now, inAppBrowser, p. repeat split; auto.
      inversion H; subst; clear H. revert L.
      unfold dispatch. rewrite intervalCallback_state, U. simpl.
      destruct (now - lastActivityTime st >? p) eqn:T.
      * intros _. apply Z.gtb_lt in T. lia.
      * rewrite useShowTransition_unlocked by exact U. congruence.
    + right. simpl in H. destruct (DEBUG env); [| discriminate].
      exists inAppBrowser. auto.
  - exfalso. pose proof (step_keeps_unlocked env props st st' ev G U H).
    congruence.
Qed.

(** *** Steps in closed form *)

Lemma step_locking_tick (st : State) (p now : Z) (inAppBrowser : bool) :
  IS_DELEGATED_BOTTOM_SHEET env = false ->
  autolockEnabled props = true ->
  autolockPeriod env props = Some p ->
  isLocked st = false ->
  now - lastActivityTime st > p ->
  step env props st (IntervalTick now inAppBrowser)
  = Some (mkState true true (lastActivityTime st) button (passwordError st)
            false (calls st ++ lockCalls env inAppBrowser)).
Proof.
  intros D G P U I. simpl. unfold intervalEffect. rewrite D, P.
  assert (T : (now - lastActivityTime st >? p) = true) by (apply Z.gtb_lt; lia).
  unfold dispatch.
  rewrite intervalCallback_state, U, T, handleLock_state, G. reflexivity.
Qed.


Lemma step_rejected_submission
    (st : State) (password : string) (result : option bool) :
  render env props st = PasswordFormView ->
  result <> Some true ->
  step env props st (SubmitPassword password result)
  = Some (mkState (isLocked st) (shouldRenderUi st) (lastActivityTime st)
            (slideForBiometricAuth st) WRONG_PASSWORD
            (if isLocked st then false else closeTimeout st)
            (calls st ++ [callApi_verifyPassword password])).
Proof.
  intros V R. simpl. rewrite V. simpl.
  assert (T : truthy result = false)
    by (destruct result as [[|] |]; simpl; congruence).
  rewrite (rejected_submission_state env st password result T).
  unfold setCloseTimeout, setPasswordError, call, skip, WRONG_PASSWORD.
  destruct (isLocked st) eqn:L; simpl; rewrite ?L; reflexivity.
Qed.


Lemma step_tick_on_locked (st : State) (p now : Z) (inAppBrowser : bool) :
  IS_DELEGATED_BOTTOM_SHEET env = false ->
  autolockPeriod env props = Some p ->
  isLocked st = true ->
  closeTimeout st = false ->
  step env props st (IntervalTick now inAppBrowser) = Some st.
Proof.
  intros D P L C. simpl. unfold intervalEffect. rewrite D, P.
  unfold dispatch. rewrite intervalCallback_state.
  rewrite L. simpl. unfold useShowTransition. rewrite L.
  destruct st; simpl in *; subst; reflexivity.
Qed.

Lemma step_tick_not_idle (st : State) (p now : Z) (inAppBrowser : bool) :
  IS_DELEGATED_BOTTOM_SHEET env = false ->
  autolockPeriod env props = Some p ->
  isLocked st = false ->
  now - lastActivityTime st <= p ->
  step env props st (IntervalTick now inAppBrowser) = Some st.
Proof.
  intros D P U I. simpl. unfold intervalEffect. rewrite D, P.
  unfold dispatch. rewrite intervalCallback_state.
  assert (T : (now - lastActivityTime st >? p) = false).
  { destruct (now - lastActivityTime st >? p) eqn:T; [| reflexivity].
    apply Z.gtb_lt in T. lia. }
  rewrite U, T. simpl. rewrite useShowTransition_unlocked by exact U.
  reflexivity.
Qed.

(** X4. A tick of the interval changes nothing at all on a locked session,
    and nothing on an unlocked session whose idle time is at most the
    period: an idle time equal to the period does not lock yet. *)
Theorem tick_changes_nothing_unless_idle
    (st : State) (p now : Z) (inAppBrowser : bool) :
  IS_DELEGATED_BOTTOM_SHEET env = false ->
  autolockPeriod env props = Some p ->
  (isLocked st = true /\ closeTimeout st = false)
  \/ (isLocked st = false /\ now - lastActivityTime st <= p) ->
  step env props st (IntervalTick now inAppBrowser) = Some st
  /\ (isLocked st = false ->
      step env props st
        (IntervalTick (lastActivityTime st + p) inAppBrowser) = Some st).
Proof.
  intros D P H. split.
  - destruct H as [[L C] | [U I]].
    + apply (step_tick_on_locked st p); assumption.
    + apply (step_tick_not_idle st p); assumption.
  - intros U. apply (step_tick_not_idle st p); auto. lia.
Qed.

(** X5. Activity postpones the lock: after an activity event at time [now]
    in a window that is not a delegated bottom sheet, whether it comes from
    a window listener or from the activity signal, the last activity time is
    [now], and no tick up to [now] plus the period changes the unlocked
    session. *)
Theorem activity_postpones_lock (st : State) (p now : Z) (ev : Event) :
  IS_DELEGATED_BOTTOM_SHEET env = false ->
  autolockPeriod env props = Some p ->
  isLocked st = false ->
  ev = WindowActivity now \/ ev = ActivitySignal now ->
  exists st1,
    step env props st ev = Some st1
    /\ st1 = setLastActivityTime now st
    /\ forall t inAppBrowser,
         t <= now + p ->
         step env props st1 (IntervalTick t inAppBrowser) = Some st1.
Proof.
  intros D P U E.
  assert (S1 : step env props st ev = Some (setLastActivityTime now st)).
  { destruct E; subst; simpl; rewrite ?D; unfold dispatch, handleActivity;
      rewrite D, U; rewrite useShowTransition_unlocked by exact U;
      reflexivity. }
  exists (setLastActivityTime now st). split; [exact S1 |].
  split; [reflexivity |].
  intros t b T. apply (step_tick_not_idle _ p); auto.
  simpl. lia.
Qed.

(** X6. The tick that locks leaves the slide on the button, so the overlay
    shows the unlock button when non-native biometrics are enabled and the
    password form otherwise; it makes the hide calls of [handleLock] and
    keeps the last activity time. *)
Theorem locking_tick_view (st : State) (p now : Z) (inAppBrowser : bool) :
  IS_DELEGATED_BOTTOM_SHEET env = false ->
  autolockEnabled props = true ->
  autolockPeriod env props = Some p ->
  isLocked st = false ->
  now - lastActivityTime st > p ->
  exists st',
    step env props st (IntervalTick now inAppBrowser) = Some st'
    /\ render env props st'
       = (if isNonNativeBiometricAuthEnabled props
          then UnlockButton else PasswordFormView)
    /\ calls st' = calls st ++ lockCalls env inAppBrowser
    /\ lastActivityTime st' = lastActivityTime st
    /\ passwordError st' = passwordError st.
Proof.
  intros D G P U I. eexists.
  split; [apply (step_locking_tick st p); assumption |].
  unfold render. rewrite D. simpl.
  destruct (isNonNativeBiometricAuthEnabled props); auto.
Qed.


(** X8. No number of rejected submissions unlocks or hides the form, and
    there is no lockout: each one is verified.  After a series of
    submissions none of which is accepted, lock flag, view and last activity
    time are as before, the log has grown by one verification call per
    attempt, in order, and the error is the wrong-password message as soon
    as there was one attempt. *)
Theorem rejected_submissions_keep_locked
    (attempts : list (string * option bool)) (st : State) :
  (forall attempt, In attempt attempts -> snd attempt <> Some true) ->
  render env props st = PasswordFormView ->
  exists st',
    run env props st (submissions attempts) = Some st'
    /\ isLocked st' = isLocked st
    /\ render env props st' = PasswordFormView
    /\ lastActivityTime st' = lastActivityTime st
    /\ calls st'
       = calls st
           ++ map (fun attempt => callApi_verifyPassword (fst attempt)) attempts
    /\ passwordError st'
       = match attempts with
         | [] => passwordError st
         | _ :: _ => WRONG_PASSWORD
         end.
Proof.
  revert st. induction attempts as [| [password result] attempts IH];
    intros st R V.
  - exists st. simpl. rewrite app_nil_r. repeat split; auto.
  - assert (R1 : result <> Some true)
      by (apply (R (password, result)); left; reflexivity).
    pose proof (step_rejected_submission st password result V R1) as S1.
    set (st1 := mkState (isLocked st) (shouldRenderUi st) (lastActivityTime st)
                  (slideForBiometricAuth st) WRONG_PASSWORD
                  (if isLocked st then false else closeTimeout st)
                  (calls st ++ [callApi_verifyPassword password])) in *.
    assert (V1 : render env props st1 = PasswordFormView) by exact V.
    destruct (IH st1 (fun a H => R a (or_intror H)) V1)
      as (st' & R' & L' & V' & T' & C' & E').
    exists st'. simpl. simpl in S1. rewrite S1.
    repeat split; auto.
    + rewrite C'. simpl. rewrite <- app_assoc. reflexivity.
    + rewrite E'. destruct attempts; reflexivity.
Qed.

(** *** The error message *)

Lemma step_passwordError (st : State) (ev : Event) (st' : State) :
  step env props st ev = Some st' ->
  passwordError st' = passwordError st
  \/ passwordError st' = ""
  \/ passwordError st' = WRONG_PASSWORD.
Proof.
  intros H. destruct ev; step_cases H; auto.
  - left. unfold dispatch, useShowTransition, handleActivity.
    destruct (IS_DELEGATED_BOTTOM_SHEET env); simpl;
      destruct (isLocked st); reflexivity.
  - left. unfold dispatch, useShowTransition, handleActivity.
    rewrite Heqb. simpl. destruct (isLocked st); reflexivity.
  - left. unfold dispatch, useShowTransition.
    rewrite intervalCallback_state.
    destruct (negb (isLocked st) && (now - lastActivityTime st >? z0));
      [rewrite handleLock_state; destruct (autolockEnabled props) |];
      simpl; destruct (isLocked st); reflexivity.
  - destruct (truthy result) eqn:T.
    + left. unfold dispatch, useShowTransition, handleSubmitPassword,
        andThen, when.
      rewrite T. simpl.
      destruct (IS_CAPACITOR env), (isLocked st); reflexivity.
    + right; right. rewrite (rejected_submission_state env st _ _ T).
      destruct (isLocked st); reflexivity.
  - right; left. unfold dispatch, useShowTransition. simpl.
    destruct (isLocked st); reflexivity.
  - left. unfold dispatch, useShowTransition. simpl.
    destruct (isLocked st); reflexivity.
  - left. unfold dispatch, useShowTransition. simpl.
    destruct (isLocked st); reflexivity.
  - left. unfold dispatch, useShowTransition. simpl.
    destruct (isLocked st); reflexivity.
  - left. rewrite afterUnlockCallback_state. reflexivity.
  - left. unfold dispatch, useShowTransition. rewrite handleLock_state.
    destruct (autolockEnabled props); simpl;
      destruct (isLocked st); reflexivity.
Qed.

(** X9. The only error the component ever holds is the generic
    wrong-password message: in every state it reaches, [passwordError] is
    empty or that message. *)
Theorem password_error_is_generic
    (now : Z) (backgroundModeActive : bool) (evs : list Event)
    (st0 st : State) :
  mount env props now backgroundModeActive = Some st0 ->
  run env props st0 evs = Some st ->
  passwordError st = "" \/ passwordError st = WRONG_PASSWORD.
Proof.
  intros M R.
  apply (run_invariant
           (fun s => passwordError s = "" \/ passwordError s = WRONG_PASSWORD))
    with (evs := evs) (st := st0); [| | exact R].
  - intros s ev s' I H.
    destruct (step_passwordError s ev s' H) as [E | [E | E]];
      rewrite E; auto.
  - unfold mount in M. destruct (autolockPeriod env props); [| discriminate].
    inversion M; subst. left. reflexivity.
Qed.

(** X10. The component mounts exactly when the autolock value, after the
    default, is the value of some entry of the table; the period is then the
    one of the first such entry.  With no such entry the render throws. *)
Theorem mount_needs_listed_value (now : Z) (backgroundModeActive : bool) :
  (mount env props now backgroundModeActive = None <->
     forall entry,
       In entry (AUTOLOCK_OPTIONS_LIST env) ->
       value entry <> autolockValueOrDefault props)
  /\ (forall before entry rest,
        AUTOLOCK_OPTIONS_LIST env = before ++ entry :: rest ->
        (forall other, In other before ->
                       value other <> autolockValueOrDefault props) ->
        value entry = autolockValueOrDefault props ->
        autolockPeriod env props = Some (period entry)
        /\ mount env props now backgroundModeActive
           = Some (initialState props now backgroundModeActive)).
Proof.
  unfold mount, autolockPeriod.
  set (v := autolockValueOrDefault props).
  set (test := fun option : AutolockOption => String.eqb (value option) v).
  split.
  - destruct (find test (AUTOLOCK_OPTIONS_LIST env)) as [o |] eqn:F.
    + split; [discriminate |]. intros H. exfalso.
      apply find_some in F. destruct F as [I T].
      apply (H o I). apply String.eqb_eq. exact T.
    + split; [| reflexivity]. intros _ entry I E.
      pose proof (find_none _ _ F entry I) as T. unfold test in T.
      apply String.eqb_neq in T. contradiction.
  - intros before entry rest E B V.
    assert (F : find test (AUTOLOCK_OPTIONS_LIST env) = Some entry).
    { rewrite E. clear E. induction before as [| o before IH]; simpl.
      - unfold test at 1. rewrite V, String.eqb_refl. reflexivity.
      - assert (T : test o = false)
          by (apply String.eqb_neq; apply B; left; reflexivity).
        rewrite T. apply IH. intros other I. apply B. right. exact I. }
    rewrite F. auto.
Qed.

(** X11. The transition key tells the four combinations of slide and
    overlay flag apart: it lies between 0 and 3, and two states have the
    same key exactly when they agree on both. *)
Theorem transition_key_distinguishes (st1 st2 : State) :
  0 <= transitionKey st1 <= 3
  /\ (transitionKey st1 = transitionKey st2 <->
        slideForBiometricAuth st1 = slideForBiometricAuth st2
        /\ shouldRenderUi st1 = shouldRenderUi st2).
Proof.
  unfold transitionKey.
  destruct (slideForBiometricAuth st1), (slideForBiometricAuth st2),
    (shouldRenderUi st1), (shouldRenderUi st2); simpl;
    (split; [lia |]); split; intros H;
    try (destruct H; congruence); try discriminate; auto.
Qed.

End MoreProperties.

(** ** The container *)

Section ContainerProperties.

Variable Global : Type.
Variable settings : Global -> Settings.
Variable selectIsHardwareAccount : Global -> option bool.

(** X12. The props carry non-native biometrics exactly when an auth
    configuration exists whose kind is neither 'password' nor
    'native-biometrics'.  In every other case the overlay never shows the
    unlock button and neither click handler can run; the autolock value and
    the hardware flag are handed on as they are. *)
Theorem unlock_button_needs_non_native_biometrics (global : Global) :
  let props := mapStateToProps Global settings selectIsHardwareAccount global in
  (isNonNativeBiometricAuthEnabled props = true <->
     exists config,
       authConfig (settings global) = Some config
       /\ kind config <> "password"
       /\ kind config <> "native-biometrics")
  /\ (isNonNativeBiometricAuthEnabled props = false ->
      forall env st,
        render env props st <> UnlockButton
        /\ step env props st UnlockButtonClick = None
        /\ step env props st ContainerClick = None)
  /\ autolockValue props = settingsAutolockValue (settings global)
  /\ isHardwareAccount props = selectIsHardwareAccount global.
Proof.
  cbv zeta. split; [| split; [| split; reflexivity]].
  - unfold mapStateToProps, isBiometricAuthEnabled,
      isNativeBiometricAuthEnabled. simpl.
    destruct (authConfig (settings global)) as [config |].
    + rewrite andb_true_iff, !negb_true_iff, !String.eqb_neq. split.
      * intros [P N]. exists config. auto.
      * intros (c & E & P & N). inversion E; subst. auto.
    + simpl. split; [discriminate |]. intros (c & E & _). discriminate.
  - intros N env st.
    assert (V : render env
                  (mapStateToProps Global settings selectIsHardwareAccount
                     global) st <> UnlockButton).
    { unfold render. rewrite N. simpl.
      destruct (IS_DELEGATED_BOTTOM_SHEET env), (shouldRenderUi st);
        discriminate. }
    split; [exact V |]. split.
    + simpl.
      destruct (render env
                  (mapStateToProps Global settings selectIsHardwareAccount
                     global) st); simpl; congruence.
    + unfold step. rewrite N, andb_false_r. reflexivity.
Qed.

End ContainerProperties.

(** ** The page-script flag *)

(** X13. The page-script flag is on exactly in an extension build whose
    script runs under a protocol other than the two extension protocols;
    outside an extension build it is off whatever the protocol. *)
Theorem page_script_iff_extension_on_foreign_page
    (IS_EXTENSION : bool) (protocol : string) :
  (IS_EXTENSION_PAGE_SCRIPT IS_EXTENSION protocol = true <->
     IS_EXTENSION = true
     /\ protocol <> "chrome-extension:"
     /\ protocol <> "moz-extension:")
  /\ IS_EXTENSION_PAGE_SCRIPT false protocol = false.
Proof.
  unfold IS_EXTENSION_PAGE_SCRIPT, EXTENSION_PROTOCOLS. simpl.
  split; [| reflexivity].
  rewrite andb_true_iff, negb_true_iff, orb_false_r, orb_false_iff,
    !String.eqb_neq.
  tauto.
Qed.

(** ** Window listeners *)

Lemma Listener_eqb_eq (a b : Listener) : Listener_eqb a b = true <-> a = b.
Proof.
  unfold Listener_eqb. rewrite !andb_true_iff, String.eqb_eq, Nat.eqb_eq.
  destruct a as [n1 c1 p1], b as [n2 c2 p2]; simpl. split.
  - intros [[-> ->] E]. apply Bool.eqb_prop in E. subst. reflexivity.
  - intros E. inversion E; subst. repeat split. apply Bool.eqb_reflx.
Qed.

Lemma existsb_Listener_eqb (l : Listener) (window : list Listener) :
  existsb (Listener_eqb l) window = true <-> In l window.
Proof.
  rewrite existsb_exists. split.
  - intros (x & I & E). apply Listener_eqb_eq in E. subst. exact I.
  - intros I. exists l. split; [exact I | apply Listener_eqb_eq; reflexivity].
Qed.

Lemma addEventListener_spec (l x : Listener) (window : list Listener) :
  In x (addEventListener l window) <-> x = l \/ In x window.
Proof.
  unfold addEventListener.
  destruct (existsb (Listener_eqb l) window) eqn:E.
  - apply existsb_Listener_eqb in E. split; [auto |].
    intros [-> | I]; assumption.
  - rewrite in_app_iff. simpl. split.
    + intros [I | [-> | []]]; auto.
    + intros [-> | I]; auto.
Qed.

Lemma addEventListener_present (l : Listener) (window : list Listener) :
  In l window -> addEventListener l window = window.
Proof.
  intros I. unfold addEventListener.
  apply existsb_Listener_eqb in I. rewrite I. reflexivity.
Qed.

Section Listeners.

Variable handler : nat.

Let listenerOf (name : string) : Listener :=
  mkListener name handler ACTIVATION_EVENT_OPTIONS.

Let addAll (names : list string) (window : list Listener) : list Listener :=
  fold_left (fun w name => addEventListener (listenerOf name) w) names window.

Let removeAll (names : list string) (window : list Listener) : list Listener :=
  fold_left (fun w name => removeEventListener (listenerOf name) w) names window.

Lemma addAll_spec (names : list string) (window : list Listener) (x : Listener) :
  In x (addAll names window) <->
  In x window \/ exists name, In name names /\ x = listenerOf name.
Proof.
  revert window. induction names as [| n names IH]; intros window; simpl.
  - split; [auto | intros [I | (name & [] & _)]; exact I].
  - unfold addAll in *. rewrite IH, addEventListener_spec. split.
    + intros [[-> | I] | (name & I & E)]; eauto.
    + intros [I | (name & [-> | I] & E)]; eauto.
Qed.

Lemma addAll_fixed (names : list string) (window : list Listener) :
  (forall name, In name names -> In (listenerOf name) window) ->
  addAll names window = window.
Proof.
  revert window. induction names as [| n names IH]; intros window H; simpl.
  - reflexivity.
  - rewrite addEventListener_present by (apply H; left; reflexivity).
    apply IH. intros name I. apply H. right. exact I.
Qed.

Lemma removeAll_spec (names : list string) (window : list Listener) :
  removeAll names window
  = filter
      (fun x => negb (existsb (fun name => Listener_eqb (listenerOf name) x)
                        names))
      window.
Proof.
  revert window. induction names as [| n names IH]; intros window; simpl.
  - induction window as [| x window IHw]; simpl; [reflexivity |].
    rewrite <- IHw. reflexivity.
  - unfold removeAll in *. rewrite IH. unfold removeEventListener.
    induction window as [| x window IHw]; simpl; [reflexivity |].
    destruct (Listener_eqb (listenerOf n) x); simpl; [exact IHw |].
    destruct (existsb _ names); simpl; [exact IHw |].
    rewrite IHw. reflexivity.
Qed.

Lemma addAll_fresh (names : list string) (window : list Listener) :
  NoDup names ->
  (forall name, In name names -> ~ In (listenerOf name) window) ->
  addAll names window = window ++ map listenerOf names.
Proof.
  revert window. induction names as [| n names IH]; intros window D H; simpl.
  - rewrite app_nil_r. reflexivity.
  - inversion D as [| ? ? N D']; subst.
    assert (E : addEventListener (listenerOf n) window
                = window ++ [listenerOf n]).
    { unfold addEventListener.
      destruct (existsb (Listener_eqb (listenerOf n)) window) eqn:X;
        [| reflexivity].
      apply existsb_Listener_eqb in X. exfalso.
      apply (H n); [left; reflexivity | exact X]. }
    rewrite E. unfold addAll in IH. rewrite IH; [| exact D' |].
    + rewrite <- app_assoc. reflexivity.
    + intros name I X. apply in_app_iff in X. destruct X as [X | [X | []]].
      * apply (H name); [right; exact I | exact X].
      * unfold listenerOf in X. inversion X; subst. contradiction.
Qed.

(** X14. Setup then cleanup leaves the window as it was: when the window
    holds none of the component's registrations (the handler on one of the
    five event names with capture), removing the activation listeners after
    adding them gives back the very list of listeners, and the registrations
    of others are never touched. *)
Theorem cleanup_undoes_listener_setup (window : list Listener) :
  (forall l, In l window -> isActivationListener handler l = false) ->
  removeActivationListeners handler (addActivationListeners handler window)
  = window.
Proof.
  intros H.
  change (removeAll ACTIVATION_EVENT_NAMES
            (addAll ACTIVATION_EVENT_NAMES window) = window).
  assert (K : forall l,
             existsb (fun name => Listener_eqb (listenerOf name) l)
               ACTIVATION_EVENT_NAMES
             = isActivationListener handler l).
  { intros l. unfold isActivationListener, listenerOf, Listener_eqb,
      ACTIVATION_EVENT_NAMES, ACTIVATION_EVENT_OPTIONS.
    cbn [existsb eventName callback capture].
    rewrite (Nat.eqb_sym handler).
    rewrite !(String.eqb_sym (eventName l)).
    destruct (callback l =? handler)%nat, (capture l),
      ("focus" =? eventName l)%string, ("mousemove" =? eventName l)%string,
      ("touch" =? eventName l)%string, ("wheel" =? eventName l)%string,
      ("keydown" =? eventName l)%string; reflexivity. }
  rewrite addAll_fresh.
  - rewrite removeAll_spec, filter_app.
    assert (F1 : forall w,
               (forall l, In l w -> isActivationListener handler l = false) ->
               filter (fun x => negb (existsb
                         (fun name => Listener_eqb (listenerOf name) x)
                         ACTIVATION_EVENT_NAMES)) w = w).
    { induction w as [| x w IHw]; intros Hw; cbn [filter]; [reflexivity |].
      rewrite K, (Hw x (or_introl eq_refl)). cbn [negb].
      rewrite IHw; [reflexivity |]. intros l I. apply Hw. right. exact I. }
    rewrite (F1 window H).
    unfold listenerOf, Listener_eqb, ACTIVATION_EVENT_NAMES,
      ACTIVATION_EVENT_OPTIONS. simpl.
    rewrite !Nat.eqb_refl. simpl. rewrite app_nil_r. reflexivity.
  - unfold ACTIVATION_EVENT_NAMES.
    repeat constructor; simpl; intuition discriminate.
  - intros name I X. apply H in X.
    unfold isActivationListener, listenerOf, ACTIVATION_EVENT_OPTIONS in X.
    cbn [eventName callback capture] in X. rewrite Nat.eqb_refl in X.
    cbn [Bool.eqb] in X. rewrite !andb_true_r in X.
    assert (T : existsb (String.eqb name) ACTIVATION_EVENT_NAMES = true).
    { apply existsb_exists. exists name. split; [exact I |].
      apply String.eqb_refl. }
    congruence.
Qed.

(** X15. After the setup every one of the five event names has the handler
    registered with capture, every listener that was there is still there,
    nothing else is added, and running the setup a second time changes
    nothing. *)
Theorem listener_setup_registers_all_once (window : list Listener) :
  (forall name,
     In name ACTIVATION_EVENT_NAMES ->
     In (mkListener name handler true)
        (addActivationListeners handler window))
  /\ (forall l, In l window -> In l (addActivationListeners handler window))
  /\ (forall l,
        In l (addActivationListeners handler window) ->
        In l window \/ isActivationListener handler l = true)
  /\ addActivationListeners handler (addActivationListeners handler window)
     = addActivationListeners handler window.
Proof.
  change (addActivationListeners handler) with (addAll ACTIVATION_EVENT_NAMES).
  split; [| split; [| split]].
  - intros name I. apply addAll_spec. right. exists name. auto.
  - intros l I. apply addAll_spec. left. exact I.
  - intros l I. apply addAll_spec in I. destruct I as [I | (name & I & ->)].
    + left. exact I.
    + right. unfold isActivationListener, listenerOf,
        ACTIVATION_EVENT_OPTIONS. cbn [eventName callback capture Bool.eqb].
      rewrite Nat.eqb_refl, !andb_true_r.
      apply existsb_exists. exists name. split; [exact I |].
      apply String.eqb_refl.
  - apply addAll_fixed. intros name I. apply addAll_spec. right.
    exists name. auto.
Qed.

End Listeners.

(** ** The further properties at concrete configurations *)

Lemma overlay_rendered_while_locked_witness :
  shouldRenderUi
    (mkState false false 1000 button "" false
       [callApi_verifyPassword "secret"; clearIsPinAccepted])
  = false.
Proof.
  destruct (overlay_rendered_while_locked envWeb propsThirtySeconds 1000 false
              traceUnlock (initialState propsThirtySeconds 1000 false)
              (mkState false false 1000 button "" false
                 [callApi_verifyPassword "secret"; clearIsPinAccepted])
              eq_refl eq_refl) as [H _].
  exact H.
Defined.

Lemma only_accepted_password_unlocks_witness :
  render envWeb propsThirtySeconds lockedOnPasswordForm = PasswordFormView
  /\ exists password,
       SubmitPassword "secret" (Some true)
       = SubmitPassword password (Some true).
Proof.
  apply (only_accepted_password_unlocks envWeb propsThirtySeconds
           lockedOnPasswordForm
           (mkState false true 1000 passwordForm "" true
              [callApi_verifyPassword "secret"])
           (SubmitPassword "secret" (Some true)));
    reflexivity.
Defined.

Lemma only_idle_tick_or_debug_hook_locks_witness :
  autolockEnabled propsThirtySeconds = true.
Proof.
  apply (only_idle_tick_or_debug_hook_locks envWeb propsThirtySeconds
           unlockedIdle
           (mkState true true 1000 button "" false [])
           (IntervalTick 40000 false));
    reflexivity.
Defined.

Lemma tick_changes_nothing_unless_idle_witness :
  step envWeb propsThirtySeconds unlockedIdle (IntervalTick 31000 false)
  = Some unlockedIdle.
Proof.
  destruct (tick_changes_nothing_unless_idle envWeb propsThirtySeconds
              unlockedIdle 30000 31000 false eq_refl eq_refl) as [H _].
  - right. split; [reflexivity | simpl; lia].
  - exact H.
Defined.

Lemma activity_postpones_lock_witness :
  exists st1,
    step envWeb propsThirtySeconds unlockedIdle (WindowActivity 50000)
    = Some st1
    /\ step envWeb propsThirtySeconds st1 (IntervalTick 80000 false) = Some st1.
Proof.
  destruct (activity_postpones_lock envWeb propsThirtySeconds unlockedIdle
              30000 50000 (WindowActivity 50000) eq_refl eq_refl eq_refl
              (or_introl eq_refl)) as (st1 & S & _ & T).
  exists st1. split; [exact S |]. apply T. lia.
Defined.

Lemma locking_tick_view_witness :
  exists st',
    step envWeb propsBiometric unlockedIdle (IntervalTick 40000 true) = Some st'
    /\ render envWeb propsBiometric st' = UnlockButton.
Proof.
  destruct (locking_tick_view envWeb propsBiometric unlockedIdle 30000 40000
              true eq_refl eq_refl eq_refl eq_refl ltac:(simpl; lia))
    as (st' & S & V & _).
  exists st'. auto.
Defined.


Lemma rejected_submissions_keep_locked_witness :
  exists st',
    run envWeb propsThirtySeconds lockedOnPasswordForm
      (submissions threeWrongAttempts) = Some st'
    /\ isLocked st' = true
    /\ calls st'
       = [callApi_verifyPassword "1234"; callApi_verifyPassword "0000";
          callApi_verifyPassword "4321"]
    /\ passwordError st' = WRONG_PASSWORD.
Proof.
  destruct (rejected_submissions_keep_locked envWeb propsThirtySeconds
              threeWrongAttempts lockedOnPasswordForm)
    as (st' & R & L & _ & _ & C & E).
  - intros attempt [<- | [<- | [<- | []]]]; discriminate.
  - reflexivity.
  - exists st'. auto.
Defined.

Lemma password_error_is_generic_witness :
  passwordError
    (mkState true true 1000 passwordForm WRONG_PASSWORD false
       [callApi_verifyPassword "1234"]) = ""
  \/ passwordError
       (mkState true true 1000 passwordForm WRONG_PASSWORD false
          [callApi_verifyPassword "1234"]) = WRONG_PASSWORD.
Proof.
  apply (password_error_is_generic envWeb propsThirtySeconds 1000 false
           [SubmitPassword "1234" (Some false)]
           (initialState propsThirtySeconds 1000 false));
    reflexivity.
Defined.

Lemma mount_needs_listed_value_witness :
  autolockPeriod envWeb propsThirtySeconds = Some 30000
  /\ mount envWeb (mkProps false (Some "5") None) 1000 false = None.
Proof.
  split.
  - destruct (mount_needs_listed_value envWeb propsThirtySeconds 1000 false)
      as [_ H].
    destruct (H [mkOption "never" 0] (mkOption "1" 30000)
                [mkOption "2" 180000; mkOption "3" 1800000]) as [P _].
    + reflexivity.
    + intros other [<- | []]. discriminate.
    + reflexivity.
    + exact P.
  - destruct (mount_needs_listed_value envWeb (mkProps false (Some "5") None)
                1000 false) as [H _].
    apply H. intros entry [<- | [<- | [<- | [<- | []]]]]; discriminate.
Defined.

Lemma transition_key_distinguishes_witness :
  transitionKey lockedOnPasswordForm <> transitionKey lockedOnButton.
Proof.
  intros E.
  destruct (transition_key_distinguishes lockedOnPasswordForm lockedOnButton)
    as [_ H].
  apply H in E. destruct E as [E _]. discriminate E.
Defined.

Lemma unlock_button_needs_non_native_biometrics_witness :
  render envWeb
    (mapStateToProps Settings (fun s => s) (fun _ => None) settingsPassword)
    lockedOnButton <> UnlockButton
  /\ isNonNativeBiometricAuthEnabled
       (mapStateToProps Settings (fun s => s) (fun _ => None) settingsWebAuthn)
     = true.
Proof.
  split.
  - destruct (unlock_button_needs_non_native_biometrics Settings
                (fun s => s) (fun _ => None) settingsPassword)
      as (_ & H & _).
    apply (H eq_refl envWeb lockedOnButton).
  - destruct (unlock_button_needs_non_native_biometrics Settings
                (fun s => s) (fun _ => None) settingsWebAuthn)
      as (H & _).
    apply H. exists (mkAuthConfig "webauthn").
    repeat split; discriminate.
Defined.

Lemma page_script_iff_extension_on_foreign_page_witness :
  IS_EXTENSION_PAGE_SCRIPT true "https:" = true
  /\ IS_EXTENSION_PAGE_SCRIPT true "moz-extension:" <> true.
Proof.
  split.
  - apply (page_script_iff_extension_on_foreign_page true "https:").
    repeat split; discriminate.
  - intros E.
    apply (page_script_iff_extension_on_foreign_page true "moz-extension:")
      in E.
    destruct E as (_ & _ & N). apply N. reflexivity.
Defined.

Lemma cleanup_undoes_listener_setup_witness :
  removeActivationListeners 1 (addActivationListeners 1 windowWithOthers)
  = windowWithOthers.
Proof.
  apply (cleanup_undoes_listener_setup 1 windowWithOthers).
  intros l [<- | [<- | [<- | []]]]; reflexivity.
Defined.

Lemma listener_setup_registers_all_once_witness :
  In (mkListener "touch" 1 true) (addActivationListeners 1 windowWithOthers)
  /\ In (mkListener "click" 7 false)
        (addActivationListeners 1 windowWithOthers).
Proof.
  destruct (listener_setup_registers_all_once 1 windowWithOthers)
    as (A & K & _).
  split.
  - apply A. simpl. auto.
  - apply K. simpl. auto.
Defined.
